(** * functions/tips/main.py: retry decisions and lazy globals

    A shallow embedding of the event handlers of [functions/tips/main.py]
    ([avoid_infinite_retries], [retry_or_not], [lazy_globals]) and of the
    module-level state they use, followed by the properties of the
    retry-decision specification.

    Python code runs in a state-and-exception monad over a [World] that
    holds what the module can observe or change: the wall clock read by
    [datetime.now()], standard output, the error-reporting client, the two
    module globals, and the list of statements executed so far. The three
    functions that serve HTTP requests ([connection_pooling],
    [gcp_api_call], [get_log_entries]) run in the same monad over [Cloud],
    the state of the session, the publisher and the logger. *)

From Stdlib Require Import ZArith QArith Ascii String List Lia.
From Stdlib Require Import Floats.SpecFloat.
From stdpp Require Import gmap strings pretty.

Local Open Scope Z_scope.
Local Open Scope string_scope.

(** ** Python values *)

(** The values an event payload can carry (the JSON-like fragment of
    Python's object model). Floats are IEEE-754 binary64 values. *)
#[warnings="-register-all"]
Inductive pyval : Type :=
| PyNone
| PyBool (b : bool)
| PyInt (n : Z)
| PyFloat (f : spec_float)
| PyStr (s : string)
| PyList (l : list pyval)
| PyDict (d : list (string * pyval)).

(** [bool(v)]: Python's truth-value test, the test that [if v:] applies. *)
Definition truthy (v : pyval) : bool :=
  match v with
  | PyNone => false
  | PyBool b => b
  | PyInt n => negb (n =? 0)%Z
  | PyFloat (S754_zero _) => false
  | PyFloat _ => true
  | PyStr s => negb (String.eqb s "")
  | PyList l => match l with [] => false | _ :: _ => true end
  | PyDict d => match d with [] => false | _ :: _ => true end
  end.

(** [d.get(key)]: the value stored under [key], [None] when absent. *)
Definition dict_get (d : gmap string pyval) (key : string) : pyval :=
  match d !! key with
  | Some v => v
  | None => PyNone
  end.

(** [range(n)] and [sum(xs)] on integers. *)
Definition range (n : nat) : list Z := map Z.of_nat (seq 0 n).
Definition sum (xs : list Z) : Z := fold_left Z.add xs 0.

(** ** Exceptions and outcomes *)

(** Exceptions by class and message. Every class here derives from
    [Exception], so [except Exception] catches all of them. *)
Inductive exn : Type :=
| Exception (msg : string)
| ValueError (msg : string)
| TypeError (msg : string)
| OtherError (cls msg : string).

(** How a call ends: it returns a value or an exception escapes it. *)
Inductive outcome (A : Type) : Type :=
| Returns (a : A)
| Raises (e : exn).
Arguments Returns {A} a.
Arguments Raises {A} e.

(** ** datetime *)

(** A [datetime]: its calendar fields counted as microseconds since
    0001-01-01T00:00:00 ([wall]), and its [tzinfo] as a UTC offset in
    microseconds; a naive datetime has none. *)
Record datetime : Type := {
  wall : Z;
  utcoffset : option Z
}.

(** [a - b] on datetimes, a [timedelta] in microseconds. Two naive values
    subtract field-wise, two aware values as instants; Python raises
    [TypeError] when exactly one of them is aware. *)
Definition datetime_sub (a b : datetime) : outcome Z :=
  match utcoffset a, utcoffset b with
  | None, None => Returns (wall a - wall b)
  | Some oa, Some ob => Returns ((wall a - oa) - (wall b - ob))
  | _, _ => Raises (TypeError "can't subtract offset-naive and offset-aware datetimes")
  end.

(** [td.total_seconds()], as an exact rational (binary64 rounding is not
    modelled; 10 s and 10000 ms are exactly representable). *)
Definition total_seconds (td : Z) : Q := td # 1000000.

(** [x > y] on numbers. *)
Definition Qgtb (x y : Q) : bool := negb (Qle_bool x y).

(** The same computation in binary64, as Python performs it: the integer
    microseconds divided by [10**6] with one rounding, the product with
    1000 with another, and the comparison with 10000. It is used to check
    the rational model on sample ages. *)
Definition binary64_of_Z (n : Z) : spec_float := binary_normalize 53 1024 n 0 false.

Definition event_age_binary64 (td : Z) : spec_float :=
  SFmul 53 1024 (SFdiv 53 1024 (binary64_of_Z td) (binary64_of_Z 1000000))
        (binary64_of_Z 1000).

Definition too_old_binary64 (td : Z) : bool :=
  SFltb (binary64_of_Z 10000) (event_age_binary64 td).

(** Ages of 0 to 20 s in steps of 10 ms, every microsecond within 0.5 ms
    of the threshold, and a minute to either side of now. *)
Definition sample_ages : list Z :=
  (map (fun k => Z.of_nat k * 10000) (seq 0 (Z.to_nat 2001))
   ++ map (fun k => 9999500 + Z.of_nat k) (seq 0 (Z.to_nat 1001))
   ++ [-60000000; -2000000; -1; 60000000])%list.

(** ** The world of the module *)

(** A line written by [print] in [avoid_infinite_retries]:
    ['Dropped {} (age {}ms)'] or ['Processed {} (age {}ms)'], kept with
    its two format arguments. *)
Inductive stdout_line : Type :=
| Dropped (event_id : string) (age : Q)
| Processed (event_id : string) (age : Q).

(** The error-reporting client [error_reporting.Client()]: the exceptions
    it has recorded, the number of [report_exception] calls it has
    received, and whether the service is failing ([outage] is then the
    exception its calls raise). *)
Record ErrorClient : Type := {
  reported : list exn;
  api_calls : nat;
  outage : option exn
}.

(** Statements whose execution is recorded, by source line. *)
Inductive Step : Type :=
| CallFileWideComputation        (* l.59:  file_wide_computation() *)
| CallFunctionSpecificComputation (* l.79:  function_specific_computation() *)
| ReadRetryFlag                  (* l.165: event.data.get('retry') *)
| HandlerBody                    (* l.171: the handler body, which fails *)
| ReportException                (* l.173: error_client.report_exception() *)
| TestTryAgain                   (* l.174: if try_again *)
| Reraise                        (* l.175: raise e *)
| SwallowReturn.                 (* l.177: return *)

#[global] Instance Step_eq_dec : EqDecision Step.
Proof. solve_decision. Defined.

Record World : Type := {
  wall_clock : Z;
  stdout : list stdout_line;
  error_client : ErrorClient;
  non_lazy_global : Z;
  lazy_global : option Z;
  trace : list Step
}.

Definition set_stdout (f : list stdout_line -> list stdout_line) (w : World) : World :=
  {| wall_clock := wall_clock w; stdout := f (stdout w);
     error_client := error_client w; non_lazy_global := non_lazy_global w;
     lazy_global := lazy_global w; trace := trace w |}.

Definition set_error_client (c : ErrorClient) (w : World) : World :=
  {| wall_clock := wall_clock w; stdout := stdout w;
     error_client := c; non_lazy_global := non_lazy_global w;
     lazy_global := lazy_global w; trace := trace w |}.

Definition set_lazy_global (v : option Z) (w : World) : World :=
  {| wall_clock := wall_clock w; stdout := stdout w;
     error_client := error_client w; non_lazy_global := non_lazy_global w;
     lazy_global := v; trace := trace w |}.

Definition set_trace (f : list Step -> list Step) (w : World) : World :=
  {| wall_clock := wall_clock w; stdout := stdout w;
     error_client := error_client w; non_lazy_global := non_lazy_global w;
     lazy_global := lazy_global w; trace := f (trace w) |}.

(** ** The monad of Python code *)

Definition Py (A : Type) : Type := World -> outcome A * World.

Definition ret {A} (a : A) : Py A := fun w => (Returns a, w).

Definition raise {A} (e : exn) : Py A := fun w => (Raises e, w).

Definition bind {A B} (m : Py A) (k : A -> Py B) : Py B :=
  fun w =>
    match m w with
    | (Returns a, w') => k a w'
    | (Raises e, w') => (Raises e, w')
    end.

(** [try: body except Exception as e: handler e]. *)
Definition try_except {A} (body : Py A) (handler : exn -> Py A) : Py A :=
  fun w =>
    match body w with
    | (Returns a, w') => (Returns a, w')
    | (Raises e, w') => handler e w'
    end.

(** A pure expression that may raise. *)
Definition lift {A} (r : outcome A) : Py A := fun w => (r, w).

Declare Scope py_scope.
Delimit Scope py_scope with py.
Notation "x <- m ;; k" := (bind m (fun x => k))
  (at level 100, m at next level, right associativity) : py_scope.
Notation "m ;; k" := (bind m (fun _ => k))
  (at level 100, right associativity) : py_scope.

(** Record that a statement runs. *)
Definition step (s : Step) : Py unit :=
  fun w => (Returns tt, set_trace (fun t => (t ++ [s])%list) w).

(** [print(line)]. *)
Definition print (line : stdout_line) : Py unit :=
  fun w => (Returns tt, set_stdout (fun out => (out ++ [line])%list) w).

(** [datetime.now()]: the local wall clock, as a naive datetime. *)
Definition datetime_now : Py datetime :=
  fun w => (Returns {| wall := wall_clock w; utcoffset := None |}, w).

(** [error_client.report_exception()] while [e] is being handled: the call
    reaches the client, which records [e], or raises when the service is
    failing. *)
Definition report_exception (e : exn) : Py unit :=
  fun w =>
    let c := error_client w in
    match outage c with
    | None =>
        (Returns tt,
         set_error_client {| reported := (reported c ++ [e])%list;
                             api_calls := S (api_calls c);
                             outage := None |} w)
    | Some failure =>
        (Raises failure,
         set_error_client {| reported := reported c;
                             api_calls := S (api_calls c);
                             outage := Some failure |} w)
    end.

(** ** The module *)

(** l.49-54. *)
Definition file_wide_computation : Z := sum (range 10).

Definition function_specific_computation : Z := sum (range 10).

(** The module-level assignments of l.59 and l.62, run once when the
    module is loaded (cold start), in an environment given by the clock
    and the error-reporting service. *)
Definition module_load (clock : Z) (service_failure : option exn) : World :=
  {| wall_clock := clock;
     stdout := [];
     error_client := {| reported := []; api_calls := 0; outage := service_failure |};
     non_lazy_global := file_wide_computation;
     lazy_global := None;
     trace := [CallFileWideComputation] |}.

(** [not lazy_global], for a global that holds [None] or an integer. *)
Definition not_lazy_global (v : option Z) : bool :=
  match v with
  | None => true
  | Some n => (n =? 0)%Z
  end.

(** ['Lazy: {}, non-lazy: {}.'.format(lazy, non_lazy)]; [None] prints as
    [None], an integer in decimal. *)
Definition format_lazy (lazy : option Z) (non_lazy : Z) : string :=
  "Lazy: " +:+ match lazy with Some n => pretty n | None => "None" end
  +:+ ", non-lazy: " +:+ pretty non_lazy +:+ ".".

(** Reads and writes of the module globals ([global lazy_global,
    non_lazy_global], l.75). *)
Definition read_lazy_global : Py (option Z) :=
  fun w => (Returns (lazy_global w), w).

Definition read_non_lazy_global : Py Z :=
  fun w => (Returns (non_lazy_global w), w).

Definition assign_lazy_global (v : Z) : Py unit :=
  fun w => (Returns tt, set_lazy_global (Some v) w).

(** l.65-81. The request is not inspected. *)
Definition lazy_globals {Request : Type} (request : Request) : Py string :=
  (lazy <- read_lazy_global ;;
   (if not_lazy_global lazy then
      step CallFunctionSpecificComputation ;;
      assign_lazy_global function_specific_computation
    else
      ret tt) ;;
   lazy <- read_lazy_global ;;
   non_lazy <- read_non_lazy_global ;;
   ret (format_lazy lazy non_lazy))%py.

(** The event and its context, as the two handlers use them. *)
Record Event : Type := {
  timestamp : string;
  data : gmap string pyval
}.

Record Context : Type := {
  event_id : string
}.

Section Handlers.

(** [dateutil.parser.parse]: an external library; it returns a naive or
    an aware datetime, or raises when the string is not a timestamp. *)
Variable parser_parse : string -> outcome datetime.

Local Open Scope py_scope.

(** l.143-156. *)
Definition avoid_infinite_retries (event : Event) (context : Context) : Py pyval :=
  let timestamp := timestamp event in
  event_time <- lift (parser_parse timestamp) ;;
  now <- datetime_now ;;
  delta <- lift (datetime_sub now event_time) ;;
  let event_age := (total_seconds delta * 1000)%Q in
  if Qgtb event_age 10000 then
    print (Dropped (event_id context) event_age) ;;
    ret (PyStr "Timeout")
  else
    print (Processed (event_id context) event_age) ;;
    ret PyNone.

(** l.164-177. *)
Definition retry_or_not (event : Event) (context : Context) : Py pyval :=
  step ReadRetryFlag ;;
  let try_again := if truthy (dict_get (data event) "retry") then true else false in
  try_except
    (step HandlerBody ;;
     raise (Exception "I failed you"))
    (fun e =>
       step ReportException ;;
       report_exception e ;;
       step TestTryAgain ;;
       if try_again then
         step Reraise ;;
         raise e
       else
         step SwallowReturn ;;
         ret PyNone).

End Handlers.

(** ** What the runtime sees *)

(** The admission decision read off a call of [avoid_infinite_retries]:
    ['Timeout'] drops the event, a plain [return] processes it; a call
    that raises decides nothing. *)
Inductive Admission : Type := Process | Drop.

Definition decision_of (r : outcome pyval) : option Admission :=
  match r with
  | Returns PyNone => Some Process
  | Returns (PyStr "Timeout") => Some Drop
  | _ => None
  end.

(** The retry action read off a call of [retry_or_not]: an exception that
    escapes makes the delivery system redeliver the event, a normal return
    acknowledges it. *)
Inductive Action : Type := Suppress | Propagate.

Definition action_of {A} (r : outcome A) : Action :=
  match r with
  | Returns _ => Suppress
  | Raises _ => Propagate
  end.

(** The flag [retry_or_not] computes from the payload (its [try_again]). *)
Definition retry_requested (event : Event) : bool :=
  truthy (dict_get (data event) "retry").

(** The failure of the handler body of [retry_or_not]. *)
Definition handler_failure : exn := Exception "I failed you".

(** The statements a call has executed, and the lines it has printed:
    what [w'] holds beyond [w]. *)
Definition executed (w w' : World) : list Step :=
  drop (length (trace w)) (trace w').



Definition count_step (s : Step) (t : list Step) : nat :=
  length (filter (fun x => x = s) t).


(** The world [retry_or_not] leaves: the client after one more call, and
    the statements [t] appended to the trace. *)
Definition after_report (c : ErrorClient) (t : list Step) (w : World) : World :=
  {| wall_clock := wall_clock w; stdout := stdout w; error_client := c;
     non_lazy_global := non_lazy_global w; lazy_global := lazy_global w;
     trace := (trace w ++ t)%list |}.

(** The statements one call of [retry_or_not] executes. *)
Definition retry_or_not_steps (event : Event) (w : World) : list Step :=
  [ReadRetryFlag; HandlerBody; ReportException] ++
  match outage (error_client w) with
  | Some _ => []
  | None => [TestTryAgain; if retry_requested event then Reraise else SwallowReturn]
  end.



(** [n] successive requests to [lazy_globals]: the responses, and the
    world they leave. *)
Fixpoint serve_lazy_globals (n : nat) (w : World) : list (outcome string) * World :=
  match n with
  | O => ([], w)
  | S n' =>
      let (r, w1) := lazy_globals tt w in
      let (rs, w2) := serve_lazy_globals n' w1 in
      (r :: rs, w2)
  end.

(** ** A timestamp parser for RFC 3339 strings *)

(** Event timestamps are RFC 3339 date-times such as
    [2018-04-05T17:56:12.975Z]. On a well-formed one [dateutil] returns
    what [rfc3339_parse] returns: an aware datetime for a trailing [Z] or
    numeric offset, a naive one when there is no offset. It serves to run
    the handlers on concrete events. *)
Definition digit (c : ascii) : option Z :=
  let n := Z.of_nat (nat_of_ascii c) in
  if (48 <=? n)%Z && (n <=? 57)%Z then Some (n - 48) else None.

Fixpoint digits (n : nat) (acc : Z) (s : string) : option (Z * string) :=
  match n with
  | O => Some (acc, s)
  | S n' =>
      match s with
      | String c rest =>
          match digit c with
          | Some d => digits n' (acc * 10 + d) rest
          | None => None
          end
      | EmptyString => None
      end
  end.

Definition expect (c : ascii) (s : string) : option string :=
  match s with
  | String c' rest => if Ascii.eqb c c' then Some rest else None
  | EmptyString => None
  end.

(** The digits after the decimal point, as microseconds; digits beyond
    the sixth are dropped. *)
Fixpoint fraction (s : string) (scale acc : Z) : Z * string :=
  match s with
  | String c rest =>
      match digit c with
      | Some d => fraction rest (scale / 10) (acc + d * scale)
      | None => (acc, s)
      end
  | EmptyString => (acc, s)
  end.

Definition is_leap (y : Z) : bool :=
  ((y mod 4 =? 0)%Z && negb (y mod 100 =? 0)%Z) || (y mod 400 =? 0)%Z.

Definition days_in_month (y m : Z) : Z :=
  match m with
  | 2 => if is_leap y then 29 else 28
  | 4 | 6 | 9 | 11 => 30
  | _ => 31
  end.

Definition days_before_year (y : Z) : Z :=
  let p := y - 1 in p * 365 + p / 4 - p / 100 + p / 400.

Definition days_before_month (y m : Z) : Z :=
  nth (Z.to_nat (m - 1)) [0; 31; 59; 90; 120; 151; 181; 212; 243; 273; 304; 334] 0
  + (if (2 <? m)%Z && is_leap y then 1 else 0).

(** Microseconds from 0001-01-01T00:00:00 to the given calendar fields. *)
Definition wall_of_fields (y mo d h mi sec us : Z) : Z :=
  ((((days_before_year y + days_before_month y mo + (d - 1)) * 24 + h) * 60 + mi) * 60
   + sec) * 1000000 + us.

Definition in_range (lo x hi : Z) : bool := (lo <=? x)%Z && (x <=? hi)%Z.

Definition parse_offset (s : string) : option (option Z) :=
  match s with
  | EmptyString => Some None
  | String "Z" EmptyString => Some (Some 0)
  | String sign rest =>
      sgn ← (if Ascii.eqb sign "+" then Some 1
             else if Ascii.eqb sign "-" then Some (-1) else None);
      '(h, rest) ← digits 2 0 rest;
      rest ← expect ":" rest;
      '(m, rest) ← digits 2 0 rest;
      if String.eqb rest "" && in_range 0 h 23 && in_range 0 m 59
      then Some (Some (sgn * (h * 60 + m) * 60 * 1000000))
      else None
  end.

Definition parse_fields (s : string) : option datetime :=
  '(y, s) ← digits 4 0 s;
  s ← expect "-" s;
  '(mo, s) ← digits 2 0 s;
  s ← expect "-" s;
  '(d, s) ← digits 2 0 s;
  s ← expect "T" s;
  '(h, s) ← digits 2 0 s;
  s ← expect ":" s;
  '(mi, s) ← digits 2 0 s;
  s ← expect ":" s;
  '(sec, s) ← digits 2 0 s;
  '(us, s) ← match s with
             | String "." (String c rest) =>
                 match digit c with
                 | Some _ => Some (fraction (String c rest) 100000 0)
                 | None => None
                 end
             | _ => Some (0, s)
             end;
  off ← parse_offset s;
  if in_range 1 y 9999 && in_range 1 mo 12 && in_range 1 d (days_in_month y mo)
     && in_range 0 h 23 && in_range 0 mi 59 && in_range 0 sec 59
  then Some {| wall := wall_of_fields y mo d h mi sec us; utcoffset := off |}
  else None.

Definition rfc3339_parse (s : string) : outcome datetime :=
  match parse_fields s with
  | Some dt => Returns dt
  | None => Raises (ValueError ("Unknown string format: " +:+ s))
  end.

(** ** Concrete events *)

Definition some_context : Context := {| event_id := "617187464135194" |}.

(** The clock reads 2018-04-05T17:56:27.975. *)
Definition clock_17_56_27 : Z := wall_of_fields 2018 4 5 17 56 27 975000.

Definition event_at (ts : string) (payload : gmap string pyval) : Event :=
  {| timestamp := ts; data := payload |}.

(** An event stamped 15 s before [clock_17_56_27], in UTC. *)
Definition old_utc_event : Event := event_at "2018-04-05T17:56:12.975Z" ∅.

(** An event stamped 2 s after [clock_17_56_27], in UTC. *)
Definition future_utc_event : Event := event_at "2018-04-05T17:56:29.975Z" ∅.

(** The same two instants without a UTC designator. *)
Definition old_naive_event : Event := event_at "2018-04-05T17:56:12.975" ∅.
Definition future_naive_event : Event := event_at "2018-04-05T17:56:29.975" ∅.

Definition garbled_event : Event := event_at "not a timestamp" ∅.

Definition retry_event : Event :=
  event_at "2018-04-05T17:56:12.975Z" {[ "retry" := PyBool true ]}.

Definition no_retry_event : Event :=
  event_at "2018-04-05T17:56:12.975Z" {[ "retry" := PyBool false ]}.

Definition retry_string_event : Event :=
  event_at "2018-04-05T17:56:12.975Z" {[ "retry" := PyStr "no" ]}.

Definition service_unavailable : exn :=
  OtherError "ServiceUnavailable" "503 failed to connect to all addresses".

(** The module just loaded, with the error-reporting service up or down. *)
Definition cold_start : World := module_load clock_17_56_27 None.
Definition cold_start_outage : World :=
  module_load clock_17_56_27 (Some service_unavailable).

(** ** Redelivery *)

(** The delivery system hands the same event to [retry_or_not] [n] times
    in a row: the outcomes of the deliveries, and the world they leave. *)
Fixpoint redeliver (event : Event) (context : Context) (n : nat) (w : World)
  : list (outcome pyval) * World :=
  match n with
  | O => ([], w)
  | S n' =>
      let (r, w1) := retry_or_not event context w in
      let (rs, w2) := redeliver event context n' w1 in
      (r :: rs, w2)
  end.

(** ** The HTTP functions *)

(** The three functions that serve HTTP requests work on other module
    globals: the [requests] session, the Pub/Sub publisher and the logger.
    [Cloud] holds them together with what they reach: the process
    environment, the web, the pages the logging API returns, and standard
    output. *)
Record LogEntry : Type := {
  entry_timestamp : datetime;
  entry_payload : pyval
}.

(** A line printed by [get_log_entries], ['* {}: {}'] with its two format
    arguments. *)
Inductive console_line : Type :=
| EntryLine (timestamp : string) (payload : pyval).

Record Cloud : Type := {
  environ : gmap string string;           (* os.environ *)
  web : string -> outcome Z;              (* a GET of a URL: its status, or a connection error *)
  session_gets : list string;             (* the GETs sent through [session] *)
  publisher_failure : option exn;         (* the exception [publish] raises, if any *)
  published : list (string * list Byte.byte); (* topic path and data handed to [publisher] *)
  log_pages : nat -> list (list LogEntry); (* the pages [list_entries] yields, by page size *)
  console : list console_line
}.


Definition set_published
    (f : list (string * list Byte.byte) -> list (string * list Byte.byte)) (c : Cloud) : Cloud :=
  {| environ := environ c; web := web c; session_gets := session_gets c;
     publisher_failure := publisher_failure c; published := f (published c);
     log_pages := log_pages c; console := console c |}.

Definition set_console (f : list console_line -> list console_line) (c : Cloud) : Cloud :=
  {| environ := environ c; web := web c; session_gets := session_gets c;
     publisher_failure := publisher_failure c; published := published c;
     log_pages := log_pages c; console := f (console c) |}.

(** The same monad, over [Cloud]. *)
Definition Fn (A : Type) : Type := Cloud -> outcome A * Cloud.

Definition fn_ret {A} (a : A) : Fn A := fun c => (Returns a, c).

Definition fn_lift {A} (r : outcome A) : Fn A := fun c => (r, c).

Definition fn_bind {A B} (m : Fn A) (k : A -> Fn B) : Fn B :=
  fun c =>
    match m c with
    | (Returns a, c') => k a c'
    | (Raises e, c') => (Raises e, c')
    end.

Declare Scope fn_scope.
Delimit Scope fn_scope with fn.
Notation "x <- m ;; k" := (fn_bind m (fun x => k))
  (at level 100, m at next level, right associativity) : fn_scope.
Notation "m ;; k" := (fn_bind m (fun _ => k))
  (at level 100, right associativity) : fn_scope.

(** [for x in xs: body x]. *)
Fixpoint for_each {A} (xs : list A) (body : A -> Fn unit) : Fn unit :=
  match xs with
  | [] => fn_ret tt
  | x :: rest => fn_bind (body x) (fun _ => for_each rest body)
  end.

(** [os.getenv(key)]: the value, or [None] when the variable is unset. *)
Definition os_getenv (key : string) : Fn pyval :=
  fun c => (Returns match environ c !! key with
                    | Some v => PyStr v
                    | None => PyNone
                    end, c).



(** [obj[key]] with a string key: the items of a dict are searched; any
    other value cannot be indexed by a string. *)
Fixpoint items_lookup (key : string) (items : list (string * pyval)) : option pyval :=
  match items with
  | [] => None
  | (k, v) :: rest => if String.eqb k key then Some v else items_lookup key rest
  end.

Definition getitem (obj : pyval) (key : string) : outcome pyval :=
  match obj with
  | PyDict items =>
      match items_lookup key items with
      | Some v => Returns v
      | None => Raises (OtherError "KeyError" ("'" +:+ key +:+ "'"))
      end
  | PyNone => Raises (TypeError "'NoneType' object is not subscriptable")
  | PyBool _ => Raises (TypeError "'bool' object is not subscriptable")
  | PyInt _ => Raises (TypeError "'int' object is not subscriptable")
  | PyFloat _ => Raises (TypeError "'float' object is not subscriptable")
  | PyStr _ => Raises (TypeError "string indices must be integers")
  | PyList _ => Raises (TypeError "list indices must be integers or slices, not str")
  end.

(** [publisher.publish(topic_path, data=data)]. *)
Definition publisher_publish (topic_path : string) (data : list Byte.byte) : Fn unit :=
  fun c =>
    match publisher_failure c with
    | Some failure => (Raises failure, c)
    | None => (Returns tt, set_published (fun sent => (sent ++ [(topic_path, data)])%list) c)
    end.

(** [logger.list_entries(page_size=n).pages]: the iterator over pages. *)
Definition logger_list_entries (page_size : nat) : Fn (list (list LogEntry)) :=
  fun c => (Returns (log_pages c page_size), c).

(** [next(it)]: the first element, [StopIteration] when there is none. *)
Definition next {A} (it : list A) : outcome A :=
  match it with
  | x :: _ => Returns x
  | [] => Raises (OtherError "StopIteration" "")
  end.

Definition print_entry (line : console_line) : Fn unit :=
  fun c => (Returns tt, set_console (fun out => (out ++ [line])%list) c).

(** The request of an HTTP function, by what [request.get_json()] gives:
    the parsed body, [None] when the body is not JSON, or the error of a
    malformed body. *)
Record FlaskRequest : Type := {
  get_json : outcome pyval
}.

Section HttpFunctions.

(** [publisher.topic_path] and [datetime.isoformat], library functions. *)
Variable topic_path_of : pyval -> pyval -> string.
Variable isoformat : datetime -> string.

Local Open Scope fn_scope.


(** l.116-138. *)
Definition gcp_api_call (request : FlaskRequest) : Fn string :=
  project <- os_getenv "GCP_PROJECT" ;;
  request_json <- fn_lift (get_json request) ;;
  topic_name <- fn_lift (getitem request_json "topic") ;;
  let topic_path := topic_path_of project topic_name in
  let data := list_byte_of_string "Test message" in
  publisher_publish topic_path data ;;
  fn_ret "1 message published".

(** l.187-207. *)
Definition get_log_entries {Request : Type} (request : Request) : Fn string :=
  all_entries <- logger_list_entries 10 ;;
  entries <- fn_lift (next all_entries) ;;
  for_each entries
    (fun entry =>
       let timestamp := isoformat (entry_timestamp entry) in
       print_entry (EntryLine timestamp (entry_payload entry))) ;;
  fn_ret "Done!".

End HttpFunctions.


(** ** Concrete requests *)

Definition example_web (url : string) : outcome Z :=
  if String.eqb url "http://example.com" then Returns 200
  else Raises (OtherError "ConnectionError" "no route to host").

Definition example_entry (ts : Z) (text : string) : LogEntry :=
  {| entry_timestamp := {| wall := ts; utcoffset := Some 0 |};
     entry_payload := PyStr text |}.

Definition example_cloud : Cloud :=
  {| environ := {[ "GCP_PROJECT" := "my-project" ]};
     web := example_web;
     session_gets := [];
     publisher_failure := None;
     published := [];
     log_pages := fun _ =>
       [[example_entry clock_17_56_27 "Function execution started";
         example_entry (clock_17_56_27 + 250000) "Function execution took 250 ms"];
        [example_entry (clock_17_56_27 + 900000) "Function execution started"]];
     console := [] |}.

Definition topic_request : FlaskRequest :=
  {| get_json := Returns (PyDict [("topic", PyStr "my-topic")]) |}.

Definition no_topic_request : FlaskRequest :=
  {| get_json := Returns (PyDict [("subject", PyStr "my-topic")]) |}.

(** Stand-ins for the two library functions, to run the functions on the
    concrete requests. *)
Definition example_topic_path (project topic : pyval) : string :=
  "projects/" +:+ match project with PyStr s => s | _ => "None" end
  +:+ "/topics/" +:+ match topic with PyStr s => s | _ => "None" end.

Definition example_isoformat (d : datetime) : string := pretty (wall d).

(** * Properties *)

(** ** Numbers and lists *)

Lemma Qgtb_spec (x y : Q) : Qgtb x y = true <-> (y < x)%Q.
Proof.
  unfold Qgtb. rewrite negb_true_iff.
  destruct (Qle_bool x y) eqn:E.
  - apply Qle_bool_iff in E. split; [discriminate |].
    intros H. exfalso. exact (Qlt_not_le _ _ H E).
  - split; [| reflexivity]. intros _.
    apply Qnot_le_lt. intros H. apply Qle_bool_iff in H. congruence.
Qed.

(** The age in milliseconds of a [timedelta] of [td] microseconds exceeds
    10000 exactly when [td] exceeds ten million. *)
Lemma event_age_threshold (td : Z) :
  Qgtb (total_seconds td * 1000) 10000 = (10000000 <? td)%Z.
Proof.
  apply eq_true_iff_eq. rewrite Qgtb_spec, Z.ltb_lt.
  unfold total_seconds, Qlt, Qmult. simpl. lia.
Qed.

(** On the sample ages the binary64 comparison agrees with the exact one. *)
Example event_age_binary64_agrees :
  forallb (fun td => Bool.eqb (too_old_binary64 td) (Qgtb (total_seconds td * 1000) 10000))
          sample_ages = true.
Proof. vm_compute. reflexivity. Qed.

Lemma event_age_negative (td : Z) :
  (td < 0)%Z <-> (total_seconds td * 1000 < 0)%Q.
Proof. unfold total_seconds, Qlt, Qmult. simpl. lia. Qed.

Lemma executed_app (w w' : World) (t : list Step) :
  trace w' = (trace w ++ t)%list -> executed w w' = t.
Proof. intros E. unfold executed. rewrite E. apply drop_app_length. Qed.


(** ** The admission filter *)

Section AdmissionFilter.

Variable parser_parse : string -> outcome datetime.

Local Abbreviation admission := (avoid_infinite_retries parser_parse).

(** An exception of the parser escapes the handler before anything is
    read or printed. *)
Lemma admission_parse_error event context w e :
  parser_parse (timestamp event) = Raises e ->
  admission event context w = (Raises e, w).
Proof.
  intros E. unfold avoid_infinite_retries, bind, lift. rewrite E. reflexivity.
Qed.

(** An aware timestamp cannot be subtracted from [datetime.now()]. *)
Lemma admission_aware event context w event_time off :
  parser_parse (timestamp event) = Returns event_time ->
  utcoffset event_time = Some off ->
  admission event context w =
    (Raises (TypeError "can't subtract offset-naive and offset-aware datetimes"), w).
Proof.
  intros E Hoff. unfold avoid_infinite_retries, bind, lift, datetime_now, datetime_sub.
  rewrite E. simpl. rewrite Hoff. reflexivity.
Qed.

(** On a naive timestamp the handler compares the age with 10000 ms,
    prints one line and returns. *)
Lemma admission_naive event context w event_time :
  parser_parse (timestamp event) = Returns event_time ->
  utcoffset event_time = None ->
  let event_age := (total_seconds (wall_clock w - wall event_time) * 1000)%Q in
  admission event context w =
    if Qgtb event_age 10000
    then (Returns (PyStr "Timeout"),
          set_stdout (fun out => (out ++ [Dropped (event_id context) event_age])%list) w)
    else (Returns PyNone,
          set_stdout (fun out => (out ++ [Processed (event_id context) event_age])%list) w).
Proof.
  intros E Hoff. unfold avoid_infinite_retries, bind, lift, datetime_now, datetime_sub.
  rewrite E. simpl. rewrite Hoff.
  destruct (Qgtb _ _); reflexivity.
Qed.


(** On a naive timestamp, the outcome by the age in milliseconds: more
    than 10000 drops, 10000 or less processes, a negative age included. *)
Lemma naive_timestamp_threshold event context w event_time :
  parser_parse (timestamp event) = Returns event_time ->
  utcoffset event_time = None ->
  let age_ms := (total_seconds (wall_clock w - wall event_time) * 1000)%Q in
  let decision := decision_of (fst (admission event context w)) in
  (decision = Some Drop <-> (10000 < age_ms)%Q) /\
  (decision = Some Process <-> (age_ms <= 10000)%Q) /\
  ((age_ms < 0)%Q -> decision = Some Process).
Proof.
  intros E Hoff. simpl. rewrite (admission_naive _ _ _ _ E Hoff). simpl.
  set (age_ms := (total_seconds (wall_clock w - wall event_time) * 1000)%Q).
  destruct (Qgtb age_ms 10000) eqn:Hage; simpl.
  - apply Qgtb_spec in Hage.
    split; [tauto |]. split.
    + split; [discriminate |]. intros H. exfalso. exact (Qlt_not_le _ _ Hage H).
    + intros H. exfalso. apply (Qlt_not_le _ _ Hage).
      apply Qlt_le_weak. apply (Qlt_trans _ 0); [exact H | reflexivity].
  - assert (Hle : (age_ms <= 10000)%Q).
    { apply Qnot_lt_le. intros H. apply Qgtb_spec in H. congruence. }
    split; [| tauto].
    split; [discriminate |]. intros H. exfalso. exact (Qlt_not_le _ _ H Hle).
Qed.

(** The handler leaves the clock, the error client, the globals and the
    trace as they are, and prints at most one line. *)
Lemma admission_frame event context w :
  let w' := snd (admission event context w) in
  wall_clock w' = wall_clock w /\ error_client w' = error_client w /\
  non_lazy_global w' = non_lazy_global w /\ lazy_global w' = lazy_global w /\
  trace w' = trace w /\
  exists out, stdout w' = (stdout w ++ out)%list /\ (length out <= 1)%nat.
Proof.
  unfold avoid_infinite_retries, bind, lift, datetime_now.
  destruct (parser_parse (timestamp event)) as [event_time | e]; simpl.
  2: { repeat split; try reflexivity. exists []. rewrite app_nil_r. split; [reflexivity | simpl; lia]. }
  destruct (datetime_sub _ event_time) as [delta | e]; simpl.
  2: { repeat split; try reflexivity. exists []. rewrite app_nil_r. split; [reflexivity | simpl; lia]. }
  destruct (Qgtb _ _); simpl; repeat split; try reflexivity;
    eexists; (split; [reflexivity | simpl; lia]).
Qed.

End AdmissionFilter.

(** ** The retry classifier *)

(** With the service up, the failure is recorded and the flag decides. *)
Lemma retry_or_not_reported event context w :
  outage (error_client w) = None ->
  retry_or_not event context w =
    let c := {| reported := (reported (error_client w) ++ [handler_failure])%list;
                api_calls := S (api_calls (error_client w));
                outage := None |} in
    if retry_requested event
    then (Raises handler_failure,
          after_report c [ReadRetryFlag; HandlerBody; ReportException; TestTryAgain; Reraise] w)
    else (Returns PyNone,
          after_report c [ReadRetryFlag; HandlerBody; ReportException; TestTryAgain; SwallowReturn] w).
Proof.
  intros Hup.
  unfold retry_or_not, retry_requested, try_except, bind, step, report_exception, raise, ret.
  simpl. rewrite Hup.
  destruct (truthy _); simpl; unfold after_report, set_trace, set_error_client; simpl;
    rewrite <- !app_assoc; reflexivity.
Qed.

(** With the service down, the exception of [report_exception] escapes the
    [except] block: the statements after l.173 do not run. *)
Lemma retry_or_not_outage event context w failure :
  outage (error_client w) = Some failure ->
  retry_or_not event context w =
    (Raises failure,
     after_report {| reported := reported (error_client w);
                     api_calls := S (api_calls (error_client w));
                     outage := Some failure |}
                  [ReadRetryFlag; HandlerBody; ReportException] w).
Proof.
  intros Hdown.
  unfold retry_or_not, try_except, bind, step, report_exception, raise, ret.
  simpl. rewrite Hdown. simpl. unfold after_report, set_trace, set_error_client; simpl.
  rewrite <- !app_assoc. reflexivity.
Qed.

Lemma retry_or_not_trace event context w :
  trace (snd (retry_or_not event context w)) =
    (trace w ++ retry_or_not_steps event w)%list.
Proof.
  unfold retry_or_not_steps.
  destruct (outage (error_client w)) as [failure |] eqn:E.
  - rewrite (retry_or_not_outage _ _ _ _ E). reflexivity.
  - rewrite (retry_or_not_reported _ _ _ E). simpl.
    destruct (retry_requested event); reflexivity.
Qed.

Lemma retry_or_not_calls event context w :
  api_calls (error_client (snd (retry_or_not event context w))) =
    S (api_calls (error_client w)).
Proof.
  destruct (outage (error_client w)) as [failure |] eqn:E.
  - rewrite (retry_or_not_outage _ _ _ _ E). reflexivity.
  - rewrite (retry_or_not_reported _ _ _ E). simpl.
    destruct (retry_requested event); reflexivity.
Qed.

(** The call changes the error client and the trace only. *)
Lemma retry_or_not_frame event context w :
  let w' := snd (retry_or_not event context w) in
  wall_clock w' = wall_clock w /\ stdout w' = stdout w /\
  non_lazy_global w' = non_lazy_global w /\ lazy_global w' = lazy_global w /\
  outage (error_client w') = outage (error_client w).
Proof.
  destruct (outage (error_client w)) as [failure |] eqn:E; simpl.
  - rewrite (retry_or_not_outage _ _ _ _ E). simpl. repeat split.
  - rewrite (retry_or_not_reported _ _ _ E). simpl.
    destruct (retry_requested event); simpl; repeat split.
Qed.

Lemma retry_or_not_executed event context w :
  executed w (snd (retry_or_not event context w)) = retry_or_not_steps event w.
Proof. apply executed_app, retry_or_not_trace. Qed.

Lemma retry_or_not_one_report event w :
  count_step ReportException (retry_or_not_steps event w) = 1%nat.
Proof.
  unfold retry_or_not_steps.
  destruct (outage (error_client w)); [reflexivity |].
  destruct (retry_requested event); reflexivity.
Qed.

(** ** Lazy globals *)

Lemma computations_45 :
  file_wide_computation = 45 /\ function_specific_computation = 45.
Proof. split; reflexivity. Qed.

(** A call that finds [lazy_global] unset or zero computes and assigns it. *)
Lemma lazy_globals_cold {Request} (request : Request) w :
  not_lazy_global (lazy_global w) = true ->
  lazy_globals request w =
    (Returns (format_lazy (Some function_specific_computation) (non_lazy_global w)),
     set_lazy_global (Some function_specific_computation)
       (set_trace (fun t => (t ++ [CallFunctionSpecificComputation])%list) w)).
Proof.
  intros H. unfold lazy_globals, bind, read_lazy_global. simpl. rewrite H. reflexivity.
Qed.

(** A call that finds [lazy_global] set changes nothing. *)
Lemma lazy_globals_warm {Request} (request : Request) w :
  not_lazy_global (lazy_global w) = false ->
  lazy_globals request w =
    (Returns (format_lazy (lazy_global w) (non_lazy_global w)), w).
Proof.
  intros H. unfold lazy_globals, bind, read_lazy_global. simpl. rewrite H. reflexivity.
Qed.

Lemma lazy_globals_non_lazy {Request} (request : Request) w :
  non_lazy_global (snd (lazy_globals request w)) = non_lazy_global w.
Proof.
  destruct (not_lazy_global (lazy_global w)) eqn:E.
  - rewrite (lazy_globals_cold _ _ E). reflexivity.
  - rewrite (lazy_globals_warm _ _ E). reflexivity.
Qed.

Lemma serve_warm (n : nat) w :
  not_lazy_global (lazy_global w) = false ->
  serve_lazy_globals n w =
    (repeat (Returns (format_lazy (lazy_global w) (non_lazy_global w))) n, w).
Proof.
  intros H. induction n as [| n IH]; simpl; [reflexivity |].
  rewrite (lazy_globals_warm _ _ H), IH. reflexivity.
Qed.

(** * The claims of the specification *)

(** ** Admission filter *)

(** On naive timestamps the two scenarios of the specification hold:
    15000 ms old is dropped, 2000 ms in the future is processed. *)
Example old_naive_event_dropped :
  decision_of (fst (avoid_infinite_retries rfc3339_parse old_naive_event
                      some_context cold_start)) = Some Drop.
Proof. reflexivity. Qed.

Example future_naive_event_processed :
  decision_of (fst (avoid_infinite_retries rfc3339_parse future_naive_event
                      some_context cold_start)) = Some Process.
Proof. reflexivity. Qed.

(** C1: for every event with a parseable timestamp the filter returns Drop
    exactly when age_ms > 10000 and Process when age_ms <= 10000. The code
    does so on naive timestamps ([admission_naive_decision]) and departs from
    it on aware ones: [old_utc_event] parses, it was stamped 15000 ms
    before the clock reading, and the call neither drops nor processes it;
    the subtraction of l.147 raises [TypeError] and nothing is printed. *)
Theorem old_utc_event_not_dropped :
  exists event_time,
    rfc3339_parse (timestamp old_utc_event) = Returns event_time /\
    utcoffset event_time = Some 0 /\
    wall_clock cold_start - wall event_time = 15000000 /\
    avoid_infinite_retries rfc3339_parse old_utc_event some_context cold_start =
      (Raises (TypeError "can't subtract offset-naive and offset-aware datetimes"),
       cold_start) /\
    decision_of (fst (avoid_infinite_retries rfc3339_parse old_utc_event
                        some_context cold_start)) = None.
Proof.
  eexists. split; [vm_compute; reflexivity |].
  repeat split; vm_compute; reflexivity.
Qed.

(** C5: for every event whose timestamp lies in the future of now, the
    filter returns Process and signals no error. The code does so on
    naive timestamps ([admission_naive_decision] with a negative age) and
    departs from it on aware ones: [future_utc_event] is stamped 2000 ms
    after the clock reading, and the call raises [TypeError] at l.147. *)
Theorem future_utc_event_raises :
  exists event_time,
    rfc3339_parse (timestamp future_utc_event) = Returns event_time /\
    utcoffset event_time = Some 0 /\
    wall_clock cold_start - wall event_time = -2000000 /\
    avoid_infinite_retries rfc3339_parse future_utc_event some_context cold_start =
      (Raises (TypeError "can't subtract offset-naive and offset-aware datetimes"),
       cold_start) /\
    decision_of (fst (avoid_infinite_retries rfc3339_parse future_utc_event
                        some_context cold_start)) <> Some Process.
Proof.
  eexists. split; [vm_compute; reflexivity |].
  repeat split; try (vm_compute; reflexivity).
  vm_compute. discriminate.
Qed.

(** C6: when the timestamp of the event does not parse, the call fails
    with the error of the parser: it escapes [avoid_infinite_retries]
    before the clock is read, nothing is printed, and no decision is
    produced. *)
Theorem unparseable_timestamp_fails
    (parser_parse : string -> outcome datetime) event context w e :
  parser_parse (timestamp event) = Raises e ->
  avoid_infinite_retries parser_parse event context w = (Raises e, w) /\
  decision_of (fst (avoid_infinite_retries parser_parse event context w)) = None.
Proof.
  intros E. rewrite (admission_parse_error _ _ _ _ _ E). split; reflexivity.
Qed.

Lemma unparseable_timestamp_fails_witness :
  rfc3339_parse (timestamp garbled_event) =
    Raises (ValueError "Unknown string format: not a timestamp") /\
  avoid_infinite_retries rfc3339_parse garbled_event some_context cold_start =
    (Raises (ValueError "Unknown string format: not a timestamp"), cold_start).
Proof.
  split; [reflexivity |].
  apply (unparseable_timestamp_fails rfc3339_parse garbled_event some_context cold_start).
  reflexivity.
Defined.

(** ** Retry classifier *)

(** C2: when the payload requests a retry, an exception escapes
    [retry_or_not] (Propagate) and the error client receives exactly one
    [report_exception] call; with the service up the exception is the
    failure of the handler, re-raised at l.175 after it was recorded. *)
Theorem retry_requested_propagates event context w :
  retry_requested event = true ->
  let r := fst (retry_or_not event context w) in
  let w' := snd (retry_or_not event context w) in
  action_of r = Propagate /\
  api_calls (error_client w') = S (api_calls (error_client w)) /\
  count_step ReportException (executed w w') = 1%nat /\
  (outage (error_client w) = None ->
   r = Raises handler_failure /\
   reported (error_client w') = (reported (error_client w) ++ [handler_failure])%list).
Proof.
  intros Hretry. simpl.
  rewrite retry_or_not_calls, retry_or_not_executed, retry_or_not_one_report.
  split; [| split; [reflexivity | split; [reflexivity |]]].
  - destruct (outage (error_client w)) as [failure |] eqn:E.
    + rewrite (retry_or_not_outage _ _ _ _ E). reflexivity.
    + rewrite (retry_or_not_reported _ _ _ E). simpl. rewrite Hretry. reflexivity.
  - intros Hup. rewrite (retry_or_not_reported _ _ _ Hup). simpl.
    rewrite Hretry. split; reflexivity.
Qed.

Lemma retry_requested_propagates_witness :
  retry_requested retry_event = true /\
  action_of (fst (retry_or_not retry_event some_context cold_start)) = Propagate.
Proof.
  split; [reflexivity |].
  apply (retry_requested_propagates retry_event some_context cold_start).
  reflexivity.
Defined.



(** C4, as stated, fails: with the error-reporting service down, an event
    that requests no retry is not suppressed. The exception raised by
    [report_exception] at l.173 is not caught, and escapes the handler. *)
Lemma report_failure_escapes :
  retry_requested no_retry_event = false /\
  outage (error_client cold_start_outage) = Some service_unavailable /\
  fst (retry_or_not no_retry_event some_context cold_start_outage) =
    Raises service_unavailable /\
  action_of (fst (retry_or_not no_retry_event some_context cold_start_outage)) <>
    (if retry_requested no_retry_event then Propagate else Suppress).
Proof.
  repeat split; try reflexivity. vm_compute. discriminate.
Qed.

(** C4, amended: a failure of the report call is not caught. When
    [report_exception] raises, its exception escapes [retry_or_not]
    whatever the payload requests, after exactly one report call and
    before the flag is tested; when it returns, the action is determined
    by the flag alone. *)
Theorem report_failure_propagates event context w :
  let r := fst (retry_or_not event context w) in
  let w' := snd (retry_or_not event context w) in
  api_calls (error_client w') = S (api_calls (error_client w)) /\
  match outage (error_client w) with
  | Some failure =>
      r = Raises failure /\ action_of r = Propagate /\
      executed w w' = [ReadRetryFlag; HandlerBody; ReportException]
  | None =>
      action_of r = if retry_requested event then Propagate else Suppress
  end.
Proof.
  simpl. split; [apply retry_or_not_calls |].
  rewrite retry_or_not_executed. unfold retry_or_not_steps.
  destruct (outage (error_client w)) as [failure |] eqn:E.
  - rewrite (retry_or_not_outage _ _ _ _ E). repeat split.
  - rewrite (retry_or_not_reported _ _ _ E). simpl.
    destruct (retry_requested event); reflexivity.
Qed.




(** ** Idempotence *)

Lemma set_stdout_nil w : set_stdout (fun out => (out ++ [])%list) w = w.
Proof. destruct w. unfold set_stdout. simpl. rewrite app_nil_r. reflexivity. Qed.

(** The outcome of the filter and the lines it prints are a function of
    the event, the context and the clock reading. *)
Lemma admission_pure (parser_parse : string -> outcome datetime) event context clock :
  exists r out, forall w,
    wall_clock w = clock ->
    avoid_infinite_retries parser_parse event context w =
      (r, set_stdout (fun o => (o ++ out)%list) w).
Proof.
  destruct (parser_parse (timestamp event)) as [event_time | e] eqn:E.
  - destruct (utcoffset event_time) as [off |] eqn:Hoff.
    + exists (Raises (TypeError "can't subtract offset-naive and offset-aware datetimes")), [].
      intros w _. rewrite set_stdout_nil. exact (admission_aware _ _ _ _ _ _ E Hoff).
    + destruct (Qgtb (total_seconds (clock - wall event_time) * 1000) 10000) eqn:Hage.
      * exists (Returns (PyStr "Timeout")),
          [Dropped (event_id context) (total_seconds (clock - wall event_time) * 1000)].
        intros w <-.
        rewrite (admission_naive _ _ _ _ _ E Hoff). simpl. rewrite Hage. reflexivity.
      * exists (Returns PyNone),
          [Processed (event_id context) (total_seconds (clock - wall event_time) * 1000)].
        intros w <-.
        rewrite (admission_naive _ _ _ _ _ E Hoff). simpl. rewrite Hage. reflexivity.
  - exists (Raises e), []. intros w _. rewrite set_stdout_nil.
    exact (admission_parse_error _ _ _ _ _ E).
Qed.





(** ** Lazy globals *)

(** C10: the first call of [lazy_globals] after the module is loaded
    assigns [function_specific_computation()], which is 45 and truthy, to
    [lazy_global]; every later call returns the same response and leaves
    the world as it is: no second computation, no assignment.
    [non_lazy_global] is [file_wide_computation()], 45, computed once at
    module load, and no call of [lazy_globals] changes it. *)
Theorem lazy_global_initialized_once (clock : Z) (service_failure : option exn) (n : nat) :
  let w0 := module_load clock service_failure in
  let w1 := snd (lazy_globals tt w0) in
  let served := serve_lazy_globals n w1 in
  non_lazy_global w0 = file_wide_computation /\
  file_wide_computation = 45 /\
  lazy_global w0 = None /\
  fst (lazy_globals tt w0) = Returns "Lazy: 45, non-lazy: 45." /\
  lazy_global w1 = Some function_specific_computation /\
  function_specific_computation = 45 /\
  truthy (PyInt function_specific_computation) = true /\
  fst served = repeat (Returns "Lazy: 45, non-lazy: 45.") n /\
  snd served = w1 /\
  count_step CallFunctionSpecificComputation (trace (snd served)) = 1%nat /\
  count_step CallFileWideComputation (trace (snd served)) = 1%nat /\
  non_lazy_global (snd served) = 45 /\
  (forall w : World, non_lazy_global (snd (lazy_globals tt w)) = non_lazy_global w).
Proof.
  cbv zeta.
  rewrite (serve_warm n (snd (lazy_globals tt (module_load clock service_failure))))
    by reflexivity.
  repeat split; try (vm_compute; reflexivity).
  intros w. apply lazy_globals_non_lazy.
Qed.

(** * Further properties of the handlers *)

(** ** The admission filter, on naive timestamps *)

(** X1: on a timestamp without UTC offset the threshold lies at ten
    seconds, counted in microseconds: the call returns ['Timeout'] exactly
    when the clock is more than 10000000 microseconds past the timestamp
    and returns [None] exactly when it is at most that, so an event aged
    exactly ten seconds is still processed. *)
Theorem stale_after_ten_seconds
    (parser_parse : string -> outcome datetime) event context w event_time :
  parser_parse (timestamp event) = Returns event_time ->
  utcoffset event_time = None ->
  let r := fst (avoid_infinite_retries parser_parse event context w) in
  (r = Returns (PyStr "Timeout") <-> 10000000 < wall_clock w - wall event_time) /\
  (r = Returns PyNone <-> wall_clock w - wall event_time <= 10000000).
Proof.
  intros E Hoff. simpl. rewrite (admission_naive _ _ _ _ _ E Hoff). simpl.
  rewrite event_age_threshold.
  destruct (10000000 <? wall_clock w - wall event_time)%Z eqn:H; simpl.
  - apply Z.ltb_lt in H. split; split; try discriminate; try tauto; lia.
  - apply Z.ltb_ge in H. split; split; try discriminate; try tauto; lia.
Qed.

Lemma stale_after_ten_seconds_witness :
  rfc3339_parse (timestamp old_naive_event) =
    Returns {| wall := clock_17_56_27 - 15000000; utcoffset := None |} /\
  fst (avoid_infinite_retries rfc3339_parse old_naive_event some_context cold_start) =
    Returns (PyStr "Timeout").
Proof.
  split; [reflexivity |].
  apply (stale_after_ten_seconds rfc3339_parse old_naive_event some_context cold_start
           {| wall := clock_17_56_27 - 15000000; utcoffset := None |});
    [reflexivity | reflexivity | vm_compute; reflexivity].
Defined.




(** X4: a timestamp that parses to an aware datetime, whatever its offset
    and whatever the clock reads, makes the call raise [TypeError] at
    l.147: nothing is printed, nothing else changes, and the call returns
    no decision. *)
Theorem aware_timestamp_always_raises
    (parser_parse : string -> outcome datetime) event context w event_time off :
  parser_parse (timestamp event) = Returns event_time ->
  utcoffset event_time = Some off ->
  avoid_infinite_retries parser_parse event context w =
    (Raises (TypeError "can't subtract offset-naive and offset-aware datetimes"), w) /\
  decision_of (fst (avoid_infinite_retries parser_parse event context w)) = None.
Proof.
  intros E Hoff. rewrite (admission_aware _ _ _ _ _ _ E Hoff). split; reflexivity.
Qed.

Lemma aware_timestamp_always_raises_witness :
  rfc3339_parse "2018-04-05T19:56:12.975+02:00" =
    Returns {| wall := clock_17_56_27 + 7200000000 - 15000000;
               utcoffset := Some 7200000000 |} /\
  decision_of
    (fst (avoid_infinite_retries rfc3339_parse
            (event_at "2018-04-05T19:56:12.975+02:00" ∅) some_context cold_start)) = None.
Proof.
  split; [vm_compute; reflexivity |].
  apply (aware_timestamp_always_raises rfc3339_parse
           (event_at "2018-04-05T19:56:12.975+02:00" ∅) some_context cold_start
           {| wall := clock_17_56_27 + 7200000000 - 15000000;
              utcoffset := Some 7200000000 |} 7200000000);
    [vm_compute; reflexivity | reflexivity].
Defined.

(** X5: [avoid_infinite_retries] acts on standard output only. It appends
    at most one line; the error client receives no call, the module
    globals and the trace of the retry handler stay as they are, also when
    the call raises. *)
Theorem filter_touches_stdout_only
    (parser_parse : string -> outcome datetime) event context w :
  exists out,
    snd (avoid_infinite_retries parser_parse event context w) =
      set_stdout (fun o => (o ++ out)%list) w /\
    (length out <= 1)%nat /\
    error_client (snd (avoid_infinite_retries parser_parse event context w)) =
      error_client w.
Proof.
  destruct (admission_pure parser_parse event context (wall_clock w)) as (r & out & H).
  exists out. rewrite (H w eq_refl). simpl. split; [reflexivity |]. split; [| reflexivity].
  pose proof (admission_frame parser_parse event context w) as Hframe.
  simpl in Hframe. destruct Hframe as (_ & _ & _ & _ & _ & out' & Hout & Hlen).
  rewrite (H w eq_refl) in Hout. simpl in Hout.
  apply app_inv_head in Hout. subst out'. exact Hlen.
Qed.

(** ** The retry classifier under redelivery *)

Lemma redeliver_outage event context n w :
  outage (error_client (snd (redeliver event context n w))) = outage (error_client w).
Proof.
  revert w. induction n as [| n IH]; intros w; simpl; [reflexivity |].
  destruct (retry_or_not event context w) as [r w1] eqn:E1.
  destruct (redeliver event context n w1) as [rs w2] eqn:E2. simpl.
  change w2 with (snd (rs, w2)). rewrite <- E2, IH.
  change w1 with (snd (r, w1)). rewrite <- E1.
  apply (retry_or_not_frame event context w).
Qed.

(** X6: an event whose payload requests a retry is never acknowledged.
    However often it is redelivered, every delivery ends with an
    exception, and each one costs a report call; with the service up the
    error client records the same failure once per delivery. *)
Theorem retry_event_never_acknowledged event context (n : nat) w :
  retry_requested event = true ->
  let rs := fst (redeliver event context n w) in
  let w' := snd (redeliver event context n w) in
  length rs = n /\
  Forall (fun r => action_of r = Propagate) rs /\
  api_calls (error_client w') = (n + api_calls (error_client w))%nat /\
  (outage (error_client w) = None ->
   rs = repeat (Raises handler_failure) n /\
   reported (error_client w') =
     (reported (error_client w) ++ repeat handler_failure n)%list).
Proof.
  intros Hretry. revert w. induction n as [| n IH]; intros w; simpl.
  - repeat split; [constructor | rewrite app_nil_r; reflexivity].
  - assert (Hact : action_of (fst (retry_or_not event context w)) = Propagate).
    { destruct (outage (error_client w)) as [failure |] eqn:E.
      - rewrite (retry_or_not_outage _ _ _ _ E). reflexivity.
      - rewrite (retry_or_not_reported _ _ _ E). simpl. rewrite Hretry. reflexivity. }
    pose proof (retry_or_not_calls event context w) as Hcalls.
    assert (Hup : outage (error_client w) = None ->
              fst (retry_or_not event context w) = Raises handler_failure /\
              reported (error_client (snd (retry_or_not event context w))) =
                (reported (error_client w) ++ [handler_failure])%list).
    { intros E. rewrite (retry_or_not_reported _ _ _ E). simpl. rewrite Hretry.
      split; reflexivity. }
    pose proof (retry_or_not_frame event context w) as Hframe. simpl in Hframe.
    destruct Hframe as (_ & _ & _ & _ & Hsame).
    destruct (retry_or_not event context w) as [r w1] eqn:E1. simpl in *.
    specialize (IH w1). simpl in IH. destruct IH as (Hlen & Hall & Hn & Hrec).
    destruct (redeliver event context n w1) as [rs w2] eqn:E2. simpl in *.
    split; [congruence |]. split; [constructor; assumption |].
    split; [lia |].
    intros Hnone. destruct (Hup Hnone) as (-> & Hreported).
    rewrite Hsame in Hrec. destruct (Hrec Hnone) as (-> & ->).
    rewrite Hreported, <- app_assoc. split; reflexivity.
Qed.

Lemma retry_event_never_acknowledged_witness :
  retry_requested retry_event = true /\
  fst (redeliver retry_event some_context 3 cold_start) =
    [Raises handler_failure; Raises handler_failure; Raises handler_failure].
Proof.
  split; [reflexivity |].
  destruct (retry_event_never_acknowledged retry_event some_context 3 cold_start eq_refl)
    as (_ & _ & _ & Hup).
  exact (proj1 (Hup eq_refl)).
Defined.

(** X7: [retry_or_not] reads nothing of the event but the truth value of
    the payload's [retry] entry, and nothing of the context: two
    deliveries that agree on that truth value end the same way and leave
    the same world, whatever their timestamps, event ids and other
    payload entries. *)
Theorem classifier_reads_only_the_retry_flag event1 event2 context1 context2 w :
  retry_requested event1 = retry_requested event2 ->
  retry_or_not event1 context1 w = retry_or_not event2 context2 w.
Proof.
  intros Hflag.
  destruct (outage (error_client w)) as [failure |] eqn:E.
  - rewrite !(retry_or_not_outage _ _ _ _ E). reflexivity.
  - rewrite !(retry_or_not_reported _ _ _ E). simpl. rewrite Hflag. reflexivity.
Qed.

Lemma classifier_reads_only_the_retry_flag_witness :
  retry_requested retry_event = retry_requested retry_string_event /\
  retry_or_not retry_event some_context cold_start =
    retry_or_not retry_string_event {| event_id := "other" |} cold_start.
Proof.
  split; [reflexivity |].
  apply (classifier_reads_only_the_retry_flag retry_event retry_string_event). reflexivity.
Defined.

(** X8: the record of the error client only grows. A delivery keeps every
    exception recorded so far and adds the failure of the handler when the
    service is up, nothing when it is down; it prints nothing and leaves
    the clock and the module globals alone. *)
Theorem reports_are_append_only event context w :
  let w' := snd (retry_or_not event context w) in
  reported (error_client w') =
    (reported (error_client w) ++
     match outage (error_client w) with
     | None => [handler_failure]
     | Some _ => []
     end)%list /\
  stdout w' = stdout w /\ wall_clock w' = wall_clock w /\
  lazy_global w' = lazy_global w /\ non_lazy_global w' = non_lazy_global w.
Proof.
  simpl.
  destruct (outage (error_client w)) as [failure |] eqn:E.
  - rewrite (retry_or_not_outage _ _ _ _ E). simpl. rewrite app_nil_r. repeat split.
  - rewrite (retry_or_not_reported _ _ _ E). simpl.
    destruct (retry_requested event); repeat split.
Qed.

(** ** Lazy globals, from any state *)

(** X9: whatever the module state, one call of [lazy_globals] settles it.
    The call computes exactly when it finds [lazy_global] unset or zero
    (the guard of l.78 is a truth-value test); afterwards the global is
    truthy, and every further call returns the response of the first and
    leaves the world as it is. Standard output, the error client and
    [non_lazy_global] are not touched. *)
Theorem lazy_globals_settles (w : World) (n : nat) :
  let r1 := fst (lazy_globals tt w) in
  let w1 := snd (lazy_globals tt w) in
  executed w w1 =
    (if not_lazy_global (lazy_global w) then [CallFunctionSpecificComputation] else []) /\
  not_lazy_global (lazy_global w1) = false /\
  lazy_globals tt w1 = (r1, w1) /\
  serve_lazy_globals n w1 = (repeat r1 n, w1) /\
  stdout w1 = stdout w /\ error_client w1 = error_client w /\
  non_lazy_global w1 = non_lazy_global w.
Proof.
  simpl.
  assert (Hsettled : not_lazy_global (lazy_global (snd (lazy_globals tt w))) = false).
  { destruct (not_lazy_global (lazy_global w)) eqn:E.
    - rewrite (lazy_globals_cold _ _ E). reflexivity.
    - rewrite (lazy_globals_warm _ _ E). exact E. }
  assert (Hresponse : fst (lazy_globals tt w) =
            Returns (format_lazy (lazy_global (snd (lazy_globals tt w)))
                                 (non_lazy_global (snd (lazy_globals tt w))))).
  { destruct (not_lazy_global (lazy_global w)) eqn:E.
    - rewrite (lazy_globals_cold _ _ E). reflexivity.
    - rewrite (lazy_globals_warm _ _ E). reflexivity. }
  split.
  { destruct (not_lazy_global (lazy_global w)) eqn:E.
    - rewrite (lazy_globals_cold _ _ E). apply executed_app. reflexivity.
    - rewrite (lazy_globals_warm _ _ E). apply executed_app. simpl.
      rewrite app_nil_r. reflexivity. }
  split; [exact Hsettled |].
  split; [rewrite (lazy_globals_warm _ _ Hsettled), Hresponse; reflexivity |].
  split; [rewrite (serve_warm n _ Hsettled), Hresponse; reflexivity |].
  destruct (not_lazy_global (lazy_global w)) eqn:E.
  - rewrite (lazy_globals_cold _ _ E). repeat split.
  - rewrite (lazy_globals_warm _ _ E). repeat split.
Qed.

(** * The HTTP functions *)

Lemma set_console_nil c : set_console (fun out => (out ++ [])%list) c = c.
Proof. destruct c. unfold set_console. simpl. rewrite app_nil_r. reflexivity. Qed.

Lemma set_console_app (l1 l2 : list console_line) c :
  set_console (fun out => (out ++ l2)%list) (set_console (fun out => (out ++ l1)%list) c) =
  set_console (fun out => (out ++ l1 ++ l2)%list) c.
Proof. unfold set_console. simpl. rewrite <- app_assoc. reflexivity. Qed.

(** The loop of l.202-205 prints one line per entry, in order. *)
Lemma for_each_print (line : LogEntry -> console_line) (entries : list LogEntry) c :
  for_each entries (fun entry => print_entry (line entry)) c =
    (Returns tt, set_console (fun out => (out ++ map line entries)%list) c).
Proof.
  revert c. induction entries as [| entry rest IH]; intros c; simpl.
  - rewrite set_console_nil. reflexivity.
  - unfold fn_bind, print_entry at 1. rewrite IH, set_console_app. reflexivity.
Qed.




(** X12: a request that does not carry a JSON object with a [topic] entry
    (the body is not JSON or malformed, is not an object, or lacks the
    key) makes [gcp_api_call] raise before it reaches the publisher:
    nothing is published and nothing else changes. *)
Theorem gcp_api_call_without_topic
    (topic_path_of : pyval -> pyval -> string) (request : FlaskRequest) c :
  (forall items, get_json request = Returns (PyDict items) ->
                 items_lookup "topic" items = None) ->
  exists e, gcp_api_call topic_path_of request c = (Raises e, c).
Proof.
  intros Hmissing.
  unfold gcp_api_call, fn_bind, os_getenv, fn_lift, getitem.
  destruct (get_json request) as [body | e] eqn:E; [| eexists; reflexivity].
  destruct body; try (eexists; reflexivity).
  rewrite (Hmissing d eq_refl). eexists. reflexivity.
Qed.

Lemma gcp_api_call_without_topic_witness :
  items_lookup "topic" [("subject", PyStr "my-topic")] = None /\
  gcp_api_call example_topic_path no_topic_request example_cloud =
    (Raises (OtherError "KeyError" "'topic'"), example_cloud).
Proof.
  split; [reflexivity |].
  destruct (gcp_api_call_without_topic example_topic_path no_topic_request example_cloud)
    as (e & He).
  - intros items Hbody. injection Hbody as <-. reflexivity.
  - reflexivity.
Defined.

(** X13: a request whose JSON object has a [topic] entry hands exactly one
    message to the module's publisher: the bytes of ['Test message'],
    whatever else the request holds, on the topic path of [GCP_PROJECT]
    ([None] when the variable is unset) and the entry. The answer is
    ['1 message published']; when [publish] raises, its exception escapes
    and nothing is recorded. *)
Theorem gcp_api_call_publishes_once
    (topic_path_of : pyval -> pyval -> string) (request : FlaskRequest) c items topic :
  get_json request = Returns (PyDict items) ->
  items_lookup "topic" items = Some topic ->
  let project := match environ c !! "GCP_PROJECT" with
                 | Some p => PyStr p
                 | None => PyNone
                 end in
  gcp_api_call topic_path_of request c =
    match publisher_failure c with
    | None =>
        (Returns "1 message published",
         set_published
           (fun sent => (sent ++ [(topic_path_of project topic,
                                   list_byte_of_string "Test message")])%list) c)
    | Some failure => (Raises failure, c)
    end.
Proof.
  intros Hbody Htopic.
  unfold gcp_api_call, fn_bind, os_getenv, fn_lift, getitem, publisher_publish, fn_ret.
  rewrite Hbody, Htopic.
  destruct (publisher_failure c); reflexivity.
Qed.

Lemma gcp_api_call_publishes_once_witness :
  get_json topic_request = Returns (PyDict [("topic", PyStr "my-topic")]) /\
  published (snd (gcp_api_call example_topic_path topic_request example_cloud)) =
    [("projects/my-project/topics/my-topic", list_byte_of_string "Test message")].
Proof.
  split; [reflexivity |].
  rewrite (gcp_api_call_publishes_once example_topic_path topic_request example_cloud
             [("topic", PyStr "my-topic")] (PyStr "my-topic") eq_refl eq_refl).
  reflexivity.
Defined.

(** What one request to [get_log_entries] does. *)
Lemma get_log_entries_run
    (isoformat : datetime -> string) {Request : Type} (request : Request) c :
  get_log_entries isoformat request c =
    match next (log_pages c 10) with
    | Returns page =>
        (Returns "Done!",
         set_console
           (fun out =>
              (out ++ map (fun entry => EntryLine (isoformat (entry_timestamp entry))
                                                  (entry_payload entry)) page)%list) c)
    | Raises e => (Raises e, c)
    end.
Proof.
  unfold get_log_entries, fn_bind, logger_list_entries, fn_lift, fn_ret.
  destruct (next (log_pages c 10)) as [page | e]; [| reflexivity].
  rewrite (for_each_print
             (fun entry => EntryLine (isoformat (entry_timestamp entry)) (entry_payload entry))).
  reflexivity.
Qed.

(** X14: [get_log_entries] prints the first page of entries and no other:
    one line per entry of that page, in order, each with the ISO form of
    the entry's timestamp and its payload, and answers ['Done!']. Later
    pages are never fetched. When the iterator yields no page, [next]
    raises [StopIteration], which escapes with nothing printed. *)
Theorem get_log_entries_prints_first_page
    (isoformat : datetime -> string) {Request : Type} (request : Request) c :
  get_log_entries isoformat request c =
    match log_pages c 10 with
    | page :: _ =>
        (Returns "Done!",
         set_console
           (fun out =>
              (out ++ map (fun entry => EntryLine (isoformat (entry_timestamp entry))
                                                  (entry_payload entry)) page)%list) c)
    | [] => (Raises (OtherError "StopIteration" ""), c)
    end.
Proof.
  rewrite get_log_entries_run.
  destruct (log_pages c 10) as [| page rest]; reflexivity.
Qed.

(** X15: when the logging API honours the page size it is asked for, a
    request to [get_log_entries] prints at most ten lines, however many
    entries the log holds. *)
Theorem get_log_entries_at_most_ten_lines
    (isoformat : datetime -> string) {Request : Type} (request : Request) c :
  (forall page, In page (log_pages c 10) -> (length page <= 10)%nat) ->
  (length (console (snd (get_log_entries isoformat request c)))
   <= length (console c) + 10)%nat.
Proof.
  intros Hsize. rewrite get_log_entries_run.
  destruct (log_pages c 10) as [| page rest] eqn:E; simpl; [lia |].
  rewrite length_app, length_map.
  specialize (Hsize page (or_introl eq_refl)). lia.
Qed.

Lemma get_log_entries_at_most_ten_lines_witness :
  (forall page, In page (log_pages example_cloud 10) -> (length page <= 10)%nat) /\
  (length (console (snd (get_log_entries example_isoformat tt example_cloud)))
   <= length (console example_cloud) + 10)%nat.
Proof.
  assert (Hsize : forall page, In page (log_pages example_cloud 10) ->
                               (length page <= 10)%nat).
  { intros page [<- | [<- | []]]; simpl; lia. }
  split; [exact Hsize |].
  exact (get_log_entries_at_most_ten_lines example_isoformat tt example_cloud Hsize).
Defined.

(** * The handlers side by side *)

(** The response of [lazy_globals] is a function of the two globals. *)
Lemma lazy_globals_response {Request : Type} (request : Request) w1 w2 :
  lazy_global w1 = lazy_global w2 ->
  non_lazy_global w1 = non_lazy_global w2 ->
  fst (lazy_globals request w1) = fst (lazy_globals request w2).
Proof.
  intros Hlazy Hnon.
  destruct (not_lazy_global (lazy_global w1)) eqn:E.
  - rewrite (lazy_globals_cold _ w1 E), (lazy_globals_cold _ w2) by congruence.
    simpl. rewrite Hnon. reflexivity.
  - rewrite (lazy_globals_warm _ w1 E), (lazy_globals_warm _ w2) by congruence.
    simpl. rewrite Hlazy, Hnon. reflexivity.
Qed.

(** X16: the two event handlers do not disturb the lazily initialised
    state: after a delivery to [avoid_infinite_retries] or to
    [retry_or_not], whether it returned or raised, [lazy_globals] answers
    what it would have answered before, and it computes only if it would
    have computed before. *)
Theorem event_handlers_keep_lazy_state
    (parser_parse : string -> outcome datetime) event context w :
  let after_filter := snd (avoid_infinite_retries parser_parse event context w) in
  let after_retry := snd (retry_or_not event context w) in
  fst (lazy_globals tt after_filter) = fst (lazy_globals tt w) /\
  fst (lazy_globals tt after_retry) = fst (lazy_globals tt w) /\
  not_lazy_global (lazy_global after_filter) = not_lazy_global (lazy_global w) /\
  not_lazy_global (lazy_global after_retry) = not_lazy_global (lazy_global w).
Proof.
  simpl.
  pose proof (admission_frame parser_parse event context w) as Hfilter.
  pose proof (retry_or_not_frame event context w) as Hretry.
  simpl in Hfilter, Hretry.
  destruct Hfilter as (_ & _ & Hf1 & Hf2 & _).
  destruct Hretry as (_ & _ & Hr1 & Hr2 & _).
  split; [apply lazy_globals_response; assumption |].
  split; [apply lazy_globals_response; assumption |].
  rewrite Hf2, Hr2. split; reflexivity.
Qed.
